(** * gitcomposer: the commit-message composer of [src/gitcomposer/main.py]

    The program is one click command, [cli], a linear workflow over two
    external executables ([git] and [gemini]) and one interactive prompt.
    It is embedded here as a function in a small state / trace / exception
    monad over an abstract environment (file system, process table and user),
    so that every statement below quantifies over all environments. *)

From Stdlib Require Import List String Ascii NArith ZArith Bool Lia.
Import ListNotations.
Open Scope list_scope.

(** ** Python values used by the program *)

Module Py.

(** A Python [str] is a sequence of Unicode code points. *)
Definition char := N.
Definition str := list char.

(** An ASCII literal of the source, as code points. *)
Definition lit (s : string) : str := map N_of_ascii (list_ascii_of_string s).

(** The newline escape of the source literals. *)
Definition nl : str := [10%N].

(** [not s] for a string: the empty string is falsy. *)
Definition is_empty (s : str) : bool :=
  match s with [] => true | _ :: _ => false end.

(** Truthiness of an [Optional[str]], as tested by [not shutil.which(..)]. *)
Definition truthy (o : option str) : bool :=
  match o with None => false | Some s => negb (is_empty s) end.

(** [str.isspace] on one code point: the characters [str.strip()] removes. *)
Definition isspace (c : char) : bool :=
  ((9 <=? c) && (c <=? 13) || (28 <=? c) && (c <=? 32)
   || (c =? 133) || (c =? 160) || (c =? 5760)
   || (8192 <=? c) && (c <=? 8202)
   || (c =? 8232) || (c =? 8233) || (c =? 8239) || (c =? 8287)
   || (c =? 12288))%N.

Fixpoint lstrip (s : str) : str :=
  match s with
  | [] => []
  | c :: s' => if isspace c then lstrip s' else s
  end.

Definition rstrip (s : str) : str := rev (lstrip (rev s)).

(** [s.strip()] *)
Definition strip (s : str) : str := rstrip (lstrip s).

(** [sep.join(xs)] *)
Fixpoint join (sep : str) (xs : list str) : str :=
  match xs with
  | [] => []
  | [x] => x
  | x :: rest => x ++ sep ++ join sep rest
  end.

Definition sep : char := 47%N.

Definition startswith_sep (s : str) : bool :=
  match s with c :: _ => (c =? sep)%N | [] => false end.

Definition endswith_sep (s : str) : bool := startswith_sep (rev s).

(** [os.path.join(a, b)] on POSIX, for two components. *)
Definition os_path_join (a b : str) : str :=
  if startswith_sep b then b
  else if is_empty a || endswith_sep a then a ++ b
  else a ++ [sep] ++ b.

(** An argument list holds an embedded null character: such a list cannot
    be handed to [exec], and [subprocess.run] raises [ValueError] on it. *)
Definition has_nul (cmd : list str) : bool :=
  existsb (existsb (N.eqb 0)) cmd.

(** click's [_ansi_re], the pattern [ESC '[' [;?0-9]* [a-zA-Z]]. *)
Definition esc : char := 27%N.
Definition bracket : char := 91%N.

Definition is_param (c : char) : bool :=
  ((c =? 59) || (c =? 63) || (48 <=? c) && (c <=? 57))%N.

Definition is_letter (c : char) : bool :=
  ((65 <=? c) && (c <=? 90) || (97 <=? c) && (c <=? 122))%N.

(** Where a left-to-right scan for the pattern stands: outside a candidate,
    just after an escape character, or inside the parameters, holding the
    characters read since the bracket. *)
Inductive ansi_state : Type :=
| Plain
| AfterEsc
| InParams (held : str).

(** click's [strip_ansi], [_ansi_re.sub("", value)], as one pass.  A
    candidate that fails is put back unchanged: none of its characters after
    the escape can start another candidate, the character that broke it
    can. *)
Fixpoint ansi_scan (state : ansi_state) (s : str) : str :=
  match s with
  | [] =>
      match state with
      | Plain => []
      | AfterEsc => [esc]
      | InParams held => esc :: bracket :: held
      end
  | c :: s' =>
      let resume :=
        if (c =? esc)%N then ansi_scan AfterEsc s' else c :: ansi_scan Plain s' in
      match state with
      | Plain => resume
      | AfterEsc =>
          if (c =? bracket)%N then ansi_scan (InParams []) s'
          else esc :: resume
      | InParams held =>
          if is_param c then ansi_scan (InParams (held ++ [c])) s'
          else if is_letter c then ansi_scan Plain s'
          else (esc :: bracket :: held) ++ resume
      end
  end.

Definition strip_ansi (s : str) : str := ansi_scan Plain s.

(** What [click.echo(msg)] writes to its stream: the message, without its
    ANSI escape sequences when the stream is not a terminal, and a newline. *)
Definition written (tty : bool) (msg : str) : str :=
  (if tty then msg else strip_ansi msg) ++ nl.

End Py.

Import Py.

(** ** The environment and what a run leaves behind *)

(** What [subprocess.run(.., capture_output=True, text=True)] can meet: the
    child ran, exited and its output decoded as text; the executable (or the
    working directory) was not found; the operating system refused in some
    other way; the child ran and exited but its output does not decode; the
    argument list cannot be encoded for [exec]. *)
Inductive spawn_result : Type :=
| Exited (returncode : Z) (out err : str)
| SpawnNotFound
| SpawnRefused
| Undecodable (returncode : Z)
| SpawnInvalid.

(** The answer that ends [click.confirm]'s prompt loop: an explicit yes or
    no, a bare line (which selects the default), or end of input. *)
Inductive reply : Type := ReplyYes | ReplyNo | ReplyBare | ReplyEOF.

Inductive exn : Type :=
| CalledProcessError (returncode : Z) (cmd : list str) (output stderr : str)
| FileNotFoundError
| OSError
| Abort
| UnicodeDecodeError
| ValueError.

Record CompletedProcess : Type := mkCompleted
  { args : list str; returncode : Z; stdout : str; stderr : str }.

(** Every call [cli] makes to the outside, in order, with its arguments and
    what it got back. *)
Inductive event : Type :=
| EvWhich (name : str) (found : option str)
| EvIsDir (p : str) (r : bool)
| EvRun (cmd : list str) (cwd : option str) (r : spawn_result)
| EvConfirm (prompt : str) (default : bool) (r : reply)
| EvEcho (err : bool) (msg : str).

(** The outside world: a state, two read-only queries on it, and two
    operations that may change it (running a process, reading the user's
    answer). *)
Record World : Type := mkWorld
  { St : Type;
    w_which : St -> str -> option str;
    w_isdir : St -> str -> bool;
    w_spawn : St -> list str -> option str -> St * spawn_result;
    w_reply : St -> str -> bool -> St * reply }.

Record Res (S A : Type) : Type := mkRes
  { st : S; trace : list event; val : A + exn }.

Arguments mkRes {S A} _ _ _.
Arguments st {S A} _.
Arguments trace {S A} _.
Arguments val {S A} _.

Section Workflow.

Context (W : World).

Definition M (A : Type) : Type := St W -> Res (St W) A.

Definition ret {A} (a : A) : M A := fun s => mkRes s [] (inl a).

Definition raise {A} (e : exn) : M A := fun s => mkRes s [] (inr e).

Definition bind {A B} (m : M A) (k : A -> M B) : M B :=
  fun s =>
    match m s with
    | mkRes s1 t1 (inl a) =>
        match k a s1 with
        | mkRes s2 t2 v => mkRes s2 (t1 ++ t2) v
        end
    | mkRes s1 t1 (inr e) => mkRes s1 t1 (inr e)
    end.

(** [try: m except ..: h]; [h] answers [None] for the exceptions no clause
    matches, which then propagate. *)
Definition try_except {A} (m : M A) (h : exn -> option (M A)) : M A :=
  fun s =>
    match m s with
    | mkRes s1 t1 (inl a) => mkRes s1 t1 (inl a)
    | mkRes s1 t1 (inr e) =>
        match h e with
        | Some k =>
            match k s1 with
            | mkRes s2 t2 v => mkRes s2 (t1 ++ t2) v
            end
        | None => mkRes s1 t1 (inr e)
        end
    end.

Notation "x <- c1 ;; c2" := (bind c1 (fun x => c2))
  (at level 61, c1 at next level, right associativity).
Notation "c1 ;; c2" := (bind c1 (fun _ => c2))
  (at level 61, right associativity).

(** [click.echo(msg, err=err)]: the call is recorded with its argument; the
    text that reaches the stream is [written tty msg]. *)
Definition echo (err : bool) (msg : str) : M unit :=
  fun s => mkRes s [EvEcho err msg] (inl tt).

(** [shutil.which(name)] *)
Definition shutil_which (name : str) : M (option str) :=
  fun s => let r := w_which W s name in mkRes s [EvWhich name r] (inl r).

(** [os.path.isdir(p)] *)
Definition os_path_isdir (p : str) : M bool :=
  fun s => let r := w_isdir W s p in mkRes s [EvIsDir p r] (inl r).

(** [subprocess.run(cmd, cwd=cwd, capture_output=True, text=True, check=True)].
    An argument with an embedded null character is refused before any child
    is started; the captured output is decoded before the exit status is
    tested, so output that does not decode raises whatever the status. *)
Definition subprocess_run (cmd : list str) (cwd : option str)
  : M CompletedProcess :=
  fun s =>
    if has_nul cmd then mkRes s [EvRun cmd cwd SpawnInvalid] (inr ValueError)
    else
      let '(s', r) := w_spawn W s cmd cwd in
      mkRes s' [EvRun cmd cwd r]
        match r with
        | Exited rc out err =>
            if (rc =? 0)%Z then inl (mkCompleted cmd rc out err)
            else inr (CalledProcessError rc cmd out err)
        | SpawnNotFound => inr FileNotFoundError
        | SpawnRefused => inr OSError
        | Undecodable _ => inr UnicodeDecodeError
        | SpawnInvalid => inr ValueError
        end.

(** [click.confirm(text, default=default)] *)
Definition click_confirm (text : str) (default : bool) : M bool :=
  fun s =>
    let '(s', r) := w_reply W s text default in
    mkRes s' [EvConfirm text default r]
      match r with
      | ReplyYes => inl true
      | ReplyNo => inl false
      | ReplyBare => inl default
      | ReplyEOF => inr Abort
      end.

(** ** The messages of the source *)

Definition msg_gemini_missing : str :=
  lit "Error: The 'gemini' CLI is not installed or not in your PATH.".
Definition msg_gemini_hint : str :=
  lit "Please install it using: npm install -g @google/gemini-cli".
Definition msg_analyzing (path : str) : str :=
  lit "Analyzing repository at: " ++ path.
Definition msg_not_repo : str :=
  lit "Error: The provided path is not a Git repository.".
Definition msg_no_staged : str :=
  lit "No staged changes to commit. Use 'git add' to stage your changes.".
Definition msg_sending : str :=
  lit "Sending staged changes to Gemini to generate a commit message...".
Definition sparkles : char := 10024%N.
Definition check_mark : char := 9989%N.
Definition msg_suggested : str :=
  nl ++ [sparkles] ++ lit " Suggested Commit Message " ++ [sparkles].
Definition msg_rule : str := lit "---------------------------------".
Definition msg_confirm : str :=
  nl ++ lit "Do you want to commit with this message?".
Definition msg_aborted : str := lit "Commit aborted by user.".
Definition msg_committing : str := lit "Committing changes...".
Definition msg_success : str := nl ++ [check_mark] ++ lit " Commit successful!".
Definition msg_ext_error : str :=
  nl ++ lit "An error occurred while running an external command:".
Definition msg_command (cmd : list str) : str :=
  lit "Command: " ++ join (lit " ") cmd.
Definition msg_stderr (e : str) : str := lit "Error Message: " ++ e.
Definition msg_git_missing : str :=
  lit "Error: 'git' command not found. Make sure Git is installed and in your PATH.".

Definition diff_begin : str := lit "--- GIT DIFF ---".
Definition diff_end : str := lit "--- END GIT DIFF ---".

(** The prompt of the source: seven adjacent literals, the fifth being the
    interpolated diff. *)
Definition prompt (git_diff : str) : str :=
  lit "You are an expert programmer. Your task is to write a concise and conventional "
  ++ lit "commit message based on the following git diff. The message should be in the imperative mood, "
  ++ (lit "for example, 'Add feature' not 'Added feature'. Do not include any preamble or backticks."
      ++ nl ++ nl)
  ++ (diff_begin ++ nl)
  ++ git_diff
  ++ (nl ++ diff_end ++ nl ++ nl)
  ++ lit "Commit message:".

Definition git_diff_cmd : list str := [lit "git"; lit "diff"; lit "--staged"].
Definition gemini_cmd (p : str) : list str := [lit "gemini"; lit "chat"; p].
Definition git_commit_cmd (m : str) : list str :=
  [lit "git"; lit "commit"; lit "-m"; m].

(** ** The command *)

(** The two [except] clauses of [cli]. *)
Definition handlers (e : exn) : option (M unit) :=
  match e with
  | CalledProcessError _ cmd _ err =>
      Some (echo true msg_ext_error ;;
            echo true (msg_command cmd) ;;
            echo true (msg_stderr err))
  | FileNotFoundError => Some (echo true msg_git_missing)
  | _ => None
  end.

(** The body of the [try] block; each [return] of the source ends a branch. *)
Definition guarded (path : str) : M unit :=
  is_repo <- os_path_isdir (os_path_join path (lit ".git")) ;;
  if negb is_repo then
    echo true msg_not_repo
  else
    diff_process <- subprocess_run git_diff_cmd (Some path) ;;
    let git_diff := stdout diff_process in
    if is_empty git_diff then
      echo false msg_no_staged
    else
      echo false msg_sending ;;
      gemini_process <- subprocess_run (gemini_cmd (prompt git_diff)) None ;;
      let commit_message := strip (stdout gemini_process) in
      echo false msg_suggested ;;
      echo false msg_rule ;;
      echo false commit_message ;;
      echo false msg_rule ;;
      confirmed <- click_confirm msg_confirm true ;;
      if negb confirmed then
        echo false msg_aborted
      else
        echo false msg_committing ;;
        commit_process <- subprocess_run (git_commit_cmd commit_message) (Some path) ;;
        echo false msg_success ;;
        echo false (stdout commit_process).

Definition cli (path : str) : M unit :=
  gemini <- shutil_which (lit "gemini") ;;
  if negb (truthy gemini) then
    echo true msg_gemini_missing ;;
    echo true msg_gemini_hint
  else
    echo false (msg_analyzing path) ;;
    try_except (guarded path) handlers.

End Workflow.

(** The exit status click's standalone mode gives the process: 0 when the
    command returns, 1 when an exception leaves it. *)
Definition exit_status {S} (r : Res S unit) : Z :=
  match val r with inl _ => 0%Z | inr _ => 1%Z end.

(** ** Observations on traces *)

Fixpoint str_eqb (a b : str) : bool :=
  match a, b with
  | [], [] => true
  | x :: a', y :: b' => (x =? y)%N && str_eqb a' b'
  | _, _ => false
  end.

(** The event starts an external process. *)
Definition is_run (e : event) : bool :=
  match e with EvRun _ _ _ => true | _ => false end.

(** The event starts [exe]. *)
Definition runs (exe : str) (e : event) : bool :=
  match e with
  | EvRun (a :: _) _ _ => str_eqb a exe
  | _ => false
  end.

(** The event starts [git commit ..]. *)
Definition runs_git_commit (e : event) : bool :=
  match e with
  | EvRun (a :: b :: _) _ _ => str_eqb a (lit "git") && str_eqb b (lit "commit")
  | _ => false
  end.

(** The arguments of [cli]'s own [click.echo] calls on one stream, in
    order. *)
Definition echoed (err : bool) (t : list event) : list str :=
  flat_map (fun e => match e with
                     | EvEcho b m => if Bool.eqb b err then [m] else []
                     | _ => []
                     end) t.

(** Every character of [s] is one that [strip] removes. *)
Definition all_space (s : str) : bool := forallb isspace s.

(** [m] neither starts nor ends with a character that [strip] removes. *)
Definition trimmed (m : str) : Prop :=
  (forall c m', m = c :: m' -> isspace c = false) /\
  (forall c m', m = m' ++ [c] -> isspace c = false).

(** ** The outcomes the program handles *)

Inductive outcome : Type :=
| MissingDependency
| NotARepository
| NoStagedChanges
| UserAbort
| ExternalCommandFailure.

(** The outcomes that are failures; the other two are informational. *)
Definition is_error (k : outcome) : bool :=
  match k with
  | NoStagedChanges | UserAbort => false
  | _ => true
  end.

(** A trace shows outcome [k]: it contains the answer that leads to it. *)
Inductive handled : outcome -> list event -> Prop :=
| gemini_not_found g t :
    In (EvWhich (lit "gemini") g) t -> truthy g = false ->
    handled MissingDependency t
| executable_not_found cmd cwd t :
    In (EvRun cmd cwd SpawnNotFound) t ->
    handled MissingDependency t
| no_git_directory p t :
    In (EvIsDir p false) t ->
    handled NotARepository t
| diff_is_empty cwd e t :
    In (EvRun git_diff_cmd cwd (Exited 0 [] e)) t ->
    handled NoStagedChanges t
| user_declined p d t :
    In (EvConfirm p d ReplyNo) t ->
    handled UserAbort t
| exited_nonzero cmd cwd rc out err t :
    rc <> 0%Z -> In (EvRun cmd cwd (Exited rc out err)) t ->
    handled ExternalCommandFailure t.

(** ** A scripted environment, used to run the command on concrete inputs *)

Record script : Type := mkScript
  { sc_gemini : option str;
    sc_isdir : bool;
    sc_diff : spawn_result;
    sc_chat : spawn_result;
    sc_reply : reply;
    sc_commit : spawn_result }.

(** Every query is answered from the script, and nothing changes it. *)
Definition scripted : World :=
  {| St := script;
     w_which := fun s name =>
       if str_eqb name (lit "gemini") then sc_gemini s else None;
     w_isdir := fun s _ => sc_isdir s;
     w_spawn := fun s cmd _ =>
       (s, match cmd with
           | a :: b :: _ =>
               if str_eqb a (lit "gemini") then sc_chat s
               else if str_eqb b (lit "diff") then sc_diff s
               else sc_commit s
           | _ => SpawnNotFound
           end);
     w_reply := fun s _ _ => (s, sc_reply s) |}.

Definition repo_path : str := lit "/home/dev/project".
Definition gemini_path : option str := Some (lit "/usr/local/bin/gemini").
Definition sample_diff : str := lit "diff --git a/parser.py b/parser.py".

(** Scripts for the scenarios of the specification. *)

Definition staged (chat : spawn_result) (answer : reply) (commit : spawn_result)
  : script :=
  mkScript gemini_path true (Exited 0 sample_diff []) chat answer commit.

Definition suggestion : spawn_result :=
  Exited 0 (lit "Fix off-by-one in parser" ++ nl) [].

Definition committed : spawn_result :=
  Exited 0 (lit "[main 1a2b3c4] Fix off-by-one in parser") [].

Definition nothing_staged : script :=
  mkScript gemini_path true (Exited 0 [] []) SpawnRefused ReplyEOF SpawnRefused.

Definition plain_directory : script :=
  mkScript gemini_path false SpawnRefused SpawnRefused ReplyEOF SpawnRefused.

Definition bare_machine : script :=
  mkScript None false SpawnNotFound SpawnNotFound ReplyEOF SpawnNotFound.

Definition blank_suggestion : spawn_result :=
  Exited 0 (lit "  " ++ nl) [].

Definition clean_tree : spawn_result :=
  Exited 1 [] (lit "nothing to commit, working tree clean").

Definition git_missing : script :=
  mkScript gemini_path true SpawnNotFound SpawnRefused ReplyEOF SpawnRefused.

(** ** Further scripted scenarios *)


Definition gemini_quota : spawn_result :=
  Exited 1 [] (lit "quota exceeded").

Definition gemini_vanished : script :=
  mkScript gemini_path true (Exited 0 sample_diff []) SpawnNotFound ReplyEOF
    SpawnRefused.

Definition two_line_message : str :=
  lit "Fix parser" ++ nl ++ nl ++ lit "Handle the last   token.".

(** ** The process around [cli] *)

(** What reaches the process's error stream: a line written by
    [click.echo], or the traceback the interpreter prints for an exception
    nobody caught. *)
Inductive stderr_item : Type :=
| ErrLine (text : str)
| ErrTraceback (e : exn).

(** The error stream of the whole process, [cli()] run in click's standalone
    mode: the lines of [cli]'s own [click.echo(.., err=True)] calls, then
    "Aborted!" when [Abort] leaves the command, or a traceback when another
    exception does.  The children's error streams are captured, and
    [click.confirm] prompts on standard output. *)
Definition main_stderr {S} (tty : bool) (r : Res S unit) : list stderr_item :=
  map (fun m => ErrLine (written tty m)) (echoed true (trace r))
  ++ match val r with
     | inl _ => []
     | inr Abort => [ErrLine (written tty (lit "Aborted!"))]
     | inr e => [ErrTraceback e]
     end.

(** The exception a call raised that neither [except] clause of [cli]
    names. *)
Definition raises (ev : event) : option exn :=
  match ev with
  | EvRun _ _ (Undecodable _) => Some UnicodeDecodeError
  | EvRun _ _ SpawnInvalid => Some ValueError
  | EvRun _ _ SpawnRefused => Some OSError
  | EvConfirm _ _ ReplyEOF => Some Abort
  | _ => None
  end.

(** A commit that exits with status 1 and output that is not valid text. *)
Definition garbled_commit : script :=
  mkScript gemini_path true (Exited 0 sample_diff [])
    (Exited 0 (lit "Fix off-by-one in parser" ++ nl) []) ReplyYes
    (Undecodable 1).

(** ** Proof automation: follow one run through the environment's answers *)

Ltac unfold_cli :=
  cbv [cli guarded handlers bind ret raise try_except echo shutil_which
       os_path_isdir subprocess_run click_confirm val st trace stdout
       exit_status negb truthy is_empty].

Ltac split_run :=
  match goal with
  | |- context [w_which ?W ?s ?n] => destruct (w_which W s n) eqn:?
  | |- context [w_isdir ?W ?s ?p] => destruct (w_isdir W s p) eqn:?
  | |- context [w_spawn ?W ?s ?c ?d] =>
      destruct (w_spawn W s c d) as [? [? ? ?| | | ?|]] eqn:?
  | |- context [w_reply ?W ?s ?c ?d] =>
      destruct (w_reply W s c d) as [? []] eqn:?
  | |- context [(?rc =? 0)%Z] =>
      is_var rc; destruct (Z.eqb_spec rc 0); [subst rc|]
  | |- context [match ?x with [] => _ | _ :: _ => _ end] =>
      is_var x; destruct x
  | |- context [has_nul ?c] => destruct (has_nul c) eqn:?
  end.

Ltac run_cli :=
  unfold_cli; change (has_nul git_diff_cmd) with false;
  repeat (split_run; cbv beta iota zeta delta [negb]);
  cbn [app].

(** Membership of an event in an explicit trace, case by case. *)
Ltac pick_event H :=
  repeat match type of H with
         | In _ (_ :: _) =>
             let E := fresh "E" in
             destruct H as [E|H]; [try discriminate E; try (inversion E; subst; clear E)|]
         | In _ [] => destruct H
         | False => destruct H
         end.

(** Branches whose recorded exit status contradicts the test made on it. *)
Ltac no_clash :=
  try match goal with n : ?x <> ?x |- _ => destruct (n eq_refl) end.

Lemma suffix_intro {A} (l suf : list A) :
  skipn (List.length l - List.length suf) l = suf -> exists pre, l = pre ++ suf.
Proof.
  intros H. exists (firstn (List.length l - List.length suf) l).
  rewrite <- (firstn_skipn (List.length l - List.length suf) l) at 1.
  now rewrite H.
Qed.

Ltac ends_with := apply suffix_intro; reflexivity.

(** Locate a run of consecutive events in an explicit trace. *)
Ltac find_infix :=
  let rec go n fuel :=
    lazymatch fuel with
    | O => fail
    | S ?f =>
        first [ lazymatch goal with
                | |- exists pre, ?l = _ =>
                    exists (firstn n l); cbn [firstn app]; reflexivity
                end
              | go (S n) f ]
    end in
  go 0%nat 24%nat.

(** The three command lines of the program are pairwise different. *)
Ltac cmd_clash :=
  try match goal with
      | E : _ = _ :> list str |- _ => solve [vm_compute in E; discriminate E]
      end.

(** ** What [strip] does *)

Lemma lstrip_split (s : str) :
  exists l, s = l ++ lstrip s /\ all_space l = true.
Proof.
  induction s as [|c s IH]; cbn [lstrip].
  - exists []. split; reflexivity.
  - destruct (isspace c) eqn:Hc.
    + destruct IH as (l & Hl & Hs). exists (c :: l). split.
      * cbn [app]. now rewrite <- Hl.
      * unfold all_space in *. cbn [forallb]. now rewrite Hc, Hs.
    + exists []. split; reflexivity.
Qed.

Lemma lstrip_head (s : str) (c : char) (m : str) :
  lstrip s = c :: m -> isspace c = false.
Proof.
  induction s as [|a s IH]; cbn [lstrip]; [discriminate|].
  destruct (isspace a) eqn:Ha; [exact IH|].
  intros E. injection E as -> _. exact Ha.
Qed.

Lemma lstrip_all_space (s : str) : all_space s = true -> lstrip s = [].
Proof.
  unfold all_space.
  induction s as [|c s IH]; cbn [forallb lstrip]; [reflexivity|].
  intros H. apply andb_prop in H as [Hc Hs]. now rewrite Hc, IH.
Qed.

Lemma all_space_rev (l : str) : all_space l = true -> all_space (rev l) = true.
Proof.
  unfold all_space. rewrite !forallb_forall. intros H x Hx.
  apply H. now apply in_rev.
Qed.

Lemma rstrip_split (s : str) :
  exists t, s = rstrip s ++ t /\ all_space t = true.
Proof.
  destruct (lstrip_split (rev s)) as (l & Hl & Hs).
  exists (rev l). split.
  - unfold rstrip. rewrite <- rev_app_distr, <- Hl. symmetry. apply rev_involutive.
  - now apply all_space_rev.
Qed.

Lemma rstrip_last (s : str) (c : char) (m : str) :
  rstrip s = m ++ [c] -> isspace c = false.
Proof.
  unfold rstrip. intros E.
  apply (f_equal (@rev char)) in E.
  rewrite rev_involutive, rev_app_distr in E. cbn in E.
  exact (lstrip_head _ _ _ E).
Qed.

(** [strip] only removes characters from the two ends, all of them
    whitespace, and leaves nothing more to remove. *)
Lemma strip_spec (s : str) :
  (exists l t, s = l ++ strip s ++ t /\ all_space l = true /\ all_space t = true)
  /\ trimmed (strip s).
Proof.
  unfold strip.
  destruct (lstrip_split s) as (l & Hl & Hls).
  destruct (rstrip_split (lstrip s)) as (t & Ht & Hts).
  split.
  - exists l, t. repeat split; trivial. now rewrite <- Ht.
  - split.
    + intros c m' E. rewrite E in Ht. cbn [app] in Ht.
      exact (lstrip_head _ _ _ Ht).
    + intros c m' E. exact (rstrip_last _ _ _ E).
Qed.

Lemma strip_all_space (s : str) : all_space s = true -> strip s = [].
Proof.
  intros H. unfold strip. now rewrite (lstrip_all_space s H).
Qed.

Ltac in_trace := vm_compute; repeat (first [left; reflexivity | right]).

(** ** What [click.echo] writes, and which directory is tested *)

Lemma ansi_scan_plain (x : str) : ~ In esc x -> ansi_scan Plain x = x.
Proof.
  induction x as [|c x IH]; intros H; cbn [ansi_scan]; [reflexivity|].
  destruct (N.eqb_spec c esc) as [->|_].
  - destruct H. now left.
  - rewrite IH; [reflexivity|]. intros Hx. apply H. now right.
Qed.

(** On a terminal, or for a message without an escape character,
    [click.echo] writes the message unchanged, followed by a newline. *)
Lemma written_unchanged (tty : bool) (x : str) :
  tty = true \/ ~ In esc x -> written tty x = x ++ nl.
Proof.
  unfold written, strip_ansi. intros [->|H]; [reflexivity|].
  destruct tty; [reflexivity|]. now rewrite ansi_scan_plain.
Qed.

Lemma error_line_written (tty : bool) (err : str) :
  tty = true \/ ~ In esc err ->
  written tty (lit "Error Message: " ++ err) = lit "Error Message: " ++ err ++ nl.
Proof.
  intros H. rewrite written_unchanged.
  - now rewrite <- app_assoc.
  - destruct H as [H|H]; [now left|right].
    intros Hin. apply in_app_or in Hin as [Hin|Hin]; [|now apply H].
    vm_compute in Hin. intuition discriminate.
Qed.

Lemma endswith_sep_spec (x : str) :
  endswith_sep x = true <-> exists p', x = p' ++ lit "/".
Proof.
  unfold endswith_sep, startswith_sep. split.
  - destruct (rev x) as [|c r] eqn:E; [discriminate|].
    intros H. apply N.eqb_eq in H. subst c.
    exists (rev r). rewrite <- (rev_involutive x), E. reflexivity.
  - intros (p' & ->). rewrite rev_app_distr. reflexivity.
Qed.

(** [os.path.join(path, ".git")] puts one separator between the two, unless
    the path is empty or already ends with one. *)
Lemma os_path_join_git (path dir : str) :
  ((path = [] \/ exists p', path = p' ++ lit "/") /\ dir = path ++ lit ".git")
  \/ (path <> [] /\ (forall p', path <> p' ++ lit "/")
      /\ dir = path ++ lit "/.git") ->
  os_path_join path (lit ".git") = dir.
Proof.
  unfold os_path_join. change (startswith_sep (lit ".git")) with false.
  cbv beta iota.
  intros [([->|H] & ->) | (Hne & Hno & ->)].
  - reflexivity.
  - apply endswith_sep_spec in H. rewrite H, orb_true_r. reflexivity.
  - destruct path as [|c x]; [now destruct Hne|]. cbn [is_empty orb].
    destruct (endswith_sep (c :: x)) eqn:E.
    + apply endswith_sep_spec in E as (p' & E). now destruct (Hno p').
    + reflexivity.
Qed.

Section Runs.

Context (W : World) (s : St W) (path : str).

Local Abbreviation run := (cli W path s).

(** C1.  In every run in which the user answers no at the confirmation
    prompt, the candidate message had been displayed, the last thing the
    program does is print "Commit aborted by user." on standard output, it
    returns normally, and no [git commit] is ever started. *)
Theorem decline_never_commits (p : str) (d : bool) :
  In (EvConfirm p d ReplyNo) (trace run) ->
  (exists out pre,
      trace run =
      pre ++ [EvEcho false (strip out);
              EvEcho false (lit "---------------------------------");
              EvConfirm (nl ++ lit "Do you want to commit with this message?")
                true ReplyNo;
              EvEcho false (lit "Commit aborted by user.")])
  /\ val run = inl tt
  /\ existsb runs_git_commit (trace run) = false.
Proof.
  run_cli; intros H; pick_event H; no_clash.
  all: repeat split; try reflexivity.
  all: eexists; ends_with.
Qed.

(** C2.  In every run in which [git diff --staged] succeeds with empty
    output, the program prints "No staged changes to commit. Use 'git add'
    to stage your changes." on standard output as its last action, returns
    normally with exit status 0, and never starts the [gemini] executable. *)
Theorem empty_diff_stops_before_gemini (e : str) :
  In (EvRun [lit "git"; lit "diff"; lit "--staged"] (Some path) (Exited 0 [] e))
     (trace run) ->
  (exists pre,
      trace run =
      pre ++ [EvRun [lit "git"; lit "diff"; lit "--staged"] (Some path)
                (Exited 0 [] e);
              EvEcho false
                (lit "No staged changes to commit. Use 'git add' to stage your changes.")])
  /\ val run = inl tt
  /\ exit_status run = 0%Z
  /\ existsb (runs (lit "gemini")) (trace run) = false.
Proof.
  run_cli; intros H; pick_event H; no_clash; cmd_clash.
  all: repeat split; try reflexivity.
  all: ends_with.
Qed.

(** C3, as amended.  Let the target path have no [.git] directory, the
    directory tested being the path and ".git" joined by one separator
    (none when the path is empty or ends with one).  When the [gemini]
    executable is resolvable, the run consists of the lookup, the progress
    line on standard output, the directory test, and the message "Error: The
    provided path is not a Git repository." on the error stream, which is
    all the process writes there; it returns normally, starts no external
    process and leaves the environment as it was.  When [gemini] is not
    resolvable, the run consists of the lookup and the two lines of the
    missing-dependency report: the directory is never tested. *)
Theorem not_a_repository_reported (dir : str) :
  ((path = [] \/ exists p', path = p' ++ lit "/") /\ dir = path ++ lit ".git")
  \/ (path <> [] /\ (forall p', path <> p' ++ lit "/")
      /\ dir = path ++ lit "/.git") ->
  w_isdir W s dir = false ->
  (truthy (w_which W s (lit "gemini")) = true ->
   trace run =
     [EvWhich (lit "gemini") (w_which W s (lit "gemini"));
      EvEcho false (lit "Analyzing repository at: " ++ path);
      EvIsDir dir false;
      EvEcho true (lit "Error: The provided path is not a Git repository.")]
   /\ (forall tty,
          main_stderr tty run =
          [ErrLine (lit "Error: The provided path is not a Git repository."
                    ++ nl)])
   /\ existsb is_run (trace run) = false
   /\ val run = inl tt
   /\ st run = s)
  /\ (truthy (w_which W s (lit "gemini")) = false ->
      trace run =
        [EvWhich (lit "gemini") (w_which W s (lit "gemini"));
         EvEcho true
           (lit "Error: The 'gemini' CLI is not installed or not in your PATH.");
         EvEcho true
           (lit "Please install it using: npm install -g @google/gemini-cli")]
      /\ val run = inl tt).
Proof.
  intros Hdir. apply os_path_join_git in Hdir. subst dir.
  run_cli; intros Hd; split; intros Hg; try discriminate.
  all: repeat split.
  all: intros []; vm_compute; reflexivity.
Qed.

(** C5.  In every run in which [gemini] succeeds with standard output
    [out] and the user answers the confirmation with a bare line, the
    candidate message is [out] with whitespace removed from both ends and
    nothing else changed; it is displayed, the prompt defaults to yes, and
    [git commit -m] is started with exactly that message in the target
    directory; when it succeeds its standard output is shown and the command
    returns normally. *)
Theorem confirmed_commit_uses_trimmed_output
    (p out e q : str) (dflt : bool) :
  In (EvRun (gemini_cmd p) None (Exited 0 out e)) (trace run) ->
  In (EvConfirm q dflt ReplyBare) (trace run) ->
  ((exists l t,
       out = l ++ strip out ++ t /\ all_space l = true /\ all_space t = true)
   /\ trimmed (strip out))
  /\ exists res post,
      (exists pre,
          trace run =
          pre ++ [EvEcho false msg_suggested; EvEcho false msg_rule;
                  EvEcho false (strip out); EvEcho false msg_rule;
                  EvConfirm msg_confirm true ReplyBare;
                  EvEcho false msg_committing;
                  EvRun [lit "git"; lit "commit"; lit "-m"; strip out]
                        (Some path) res] ++ post)
      /\ (forall cout cerr,
             res = Exited 0 cout cerr ->
             post = [EvEcho false msg_success; EvEcho false cout]
             /\ val run = inl tt).
Proof.
  intros H H'. split; [apply strip_spec|]. revert H H'.
  run_cli; intros H; pick_event H; intros H'; pick_event H'; no_clash.
  all: do 2 eexists; (split; [find_infix|]).
  all: intros cout cerr E; inversion E; subst; no_clash.
  all: split; reflexivity.
Qed.

(** C6, as amended.  Whenever an external process of the run exits with a
    non-zero status and its output decodes as text, the run ends right there
    with three [click.echo] calls on the error stream: the heading, "Command:
    " with the arguments joined by single spaces ("git diff --staged",
    "gemini chat <prompt>" or "git commit -m <message>"), and "Error Message:
    " with the process's captured standard error; that last line reaches the
    stream unchanged when the stream is a terminal or the captured text has
    no escape character.  The command then returns normally and starts
    nothing else. *)
Theorem nonzero_exit_is_reported
    (cmd : list str) (cwd : option str) (rc : Z) (out err : str) :
  In (EvRun cmd cwd (Exited rc out err)) (trace run) ->
  rc <> 0%Z ->
  (exists line,
      (cmd = [lit "git"; lit "diff"; lit "--staged"]
       /\ line = lit "git diff --staged"
       \/ (exists p, cmd = [lit "gemini"; lit "chat"; p]
                     /\ line = lit "gemini chat " ++ p)
       \/ (exists m, cmd = [lit "git"; lit "commit"; lit "-m"; m]
                     /\ line = lit "git commit -m " ++ m))
      /\ exists pre,
          trace run =
          pre ++ [EvRun cmd cwd (Exited rc out err);
                  EvEcho true
                    (nl ++ lit "An error occurred while running an external command:");
                  EvEcho true (lit "Command: " ++ line);
                  EvEcho true (lit "Error Message: " ++ err)])
  /\ (forall tty,
         tty = true \/ ~ In esc err ->
         written tty (lit "Error Message: " ++ err)
         = lit "Error Message: " ++ err ++ nl)
  /\ val run = inl tt.
Proof.
  run_cli; intros H; pick_event H; intros Hrc; no_clash.
  all: split; [|split; [intros tty; apply error_line_written | reflexivity]].
  all: eexists; split; [|ends_with].
  all: first [ left; split; reflexivity
             | right; left; eexists; split; reflexivity
             | right; right; eexists; split; reflexivity ].
Qed.

(** C10.  In every run in which [gemini] succeeds with an output made of
    whitespace only, the candidate message is the empty string; it is
    displayed and the confirmation is asked all the same, and on a yes or a
    bare line [git commit -m] is started with the empty string as message. *)
Theorem blank_suggestion_is_committed (p out e : str) :
  all_space out = true ->
  In (EvRun (gemini_cmd p) None (Exited 0 out e)) (trace run) ->
  strip out = []
  /\ exists rep post,
      (exists pre,
          trace run =
          pre ++ [EvEcho false msg_suggested; EvEcho false msg_rule;
                  EvEcho false []; EvEcho false msg_rule;
                  EvConfirm msg_confirm true rep] ++ post)
      /\ (rep = ReplyYes \/ rep = ReplyBare ->
          exists res tl,
            post = EvEcho false msg_committing
                   :: EvRun [lit "git"; lit "commit"; lit "-m"; []]
                        (Some path) res
                   :: tl).
Proof.
  intros Hsp H. pose proof (strip_all_space out Hsp) as Hs.
  split; [exact Hs|]. clear Hsp. revert Hs H.
  run_cli; intros Hs H; pick_event H; no_clash.
  all: rewrite Hs.
  all: do 2 eexists; (split; [find_infix|]).
  all: intros [E|E]; try discriminate E.
  all: do 2 eexists; reflexivity.
Qed.

(** C7, as amended.  On every handled outcome (a missing executable, a
    path that is not a repository, an empty staged diff, the user declining,
    an external command exiting non-zero with output that decodes as text)
    the command returns without raising and the process exits with status 0;
    on those that are failures the last thing written goes to the error
    stream. *)
Theorem handled_outcomes_exit_zero (k : outcome) :
  handled k (trace run) ->
  val run = inl tt
  /\ exit_status run = 0%Z
  /\ (is_error k = true ->
      exists msg pre, trace run = pre ++ [EvEcho true msg]).
Proof.
  run_cli; intros H; inversion H; subst;
    match goal with H0 : In _ _ |- _ => pick_event H0 end;
    no_clash; cmd_clash; try discriminate.
  all: repeat split; try discriminate.
  all: intros _; eexists; ends_with.
Qed.

(** C8.  When [gemini] is not resolvable, the whole run is the lookup
    followed by the not-installed line and the installation hint on the error
    stream: nothing else happens and the environment is untouched.  When
    starting an executable fails because it is not found, the run ends with
    the git-not-found line on the error stream. *)
Theorem missing_executables_have_dedicated_reports :
  (truthy (w_which W s (lit "gemini")) = false ->
   trace run =
     [EvWhich (lit "gemini") (w_which W s (lit "gemini"));
      EvEcho true
        (lit "Error: The 'gemini' CLI is not installed or not in your PATH.");
      EvEcho true
        (lit "Please install it using: npm install -g @google/gemini-cli")]
   /\ st run = s
   /\ val run = inl tt)
  /\ (forall cmd cwd,
         In (EvRun cmd cwd SpawnNotFound) (trace run) ->
         (exists pre,
             trace run =
             pre ++ [EvRun cmd cwd SpawnNotFound;
                     EvEcho true
                       (lit "Error: 'git' command not found. Make sure Git is installed and in your PATH.")])
         /\ val run = inl tt).
Proof.
  split.
  - run_cli; intros H; try discriminate H; repeat split.
  - intros cmd cwd. run_cli; intros H; pick_event H.
    all: split; [ends_with | reflexivity].
Qed.

(** C9.  When the preflight checks pass and [git diff --staged] succeeds
    with empty output, the only process the run starts is that one, so the
    run leaves the environment in the state the diff left it in and ends
    with the no-staged-changes report; if the diff does not change the
    environment, running the command again gives the very same run. *)
Theorem empty_diff_run_is_repeatable (e : str) (s1 : St W) :
  truthy (w_which W s (lit "gemini")) = true ->
  w_isdir W s (os_path_join path (lit ".git")) = true ->
  w_spawn W s git_diff_cmd (Some path) = (s1, Exited 0 [] e) ->
  (st run = s1
   /\ filter is_run (trace run) =
        [EvRun git_diff_cmd (Some path) (Exited 0 [] e)]
   /\ (exists pre, trace run = pre ++ [EvEcho false msg_no_staged])
   /\ val run = inl tt)
  /\ (s1 = s -> cli W path (st run) = run).
Proof.
  intros Hg Hd Hs.
  assert (Hrun : st run = s1
                 /\ filter is_run (trace run) =
                      [EvRun git_diff_cmd (Some path) (Exited 0 [] e)]
                 /\ (exists pre, trace run = pre ++ [EvEcho false msg_no_staged])
                 /\ val run = inl tt).
  { unfold truthy, is_empty in Hg. unfold_cli.
    destruct (w_which W s (lit "gemini")) as [[|c g]|]; try discriminate Hg.
    cbv beta iota zeta delta [negb]. rewrite Hd.
    cbv beta iota zeta delta [negb]. rewrite Hs.
    cbv beta iota zeta delta [negb]. cbn [app].
    repeat split. ends_with. }
  split; [exact Hrun|].
  intros ->. destruct Hrun as (-> & _). reflexivity.
Qed.

End Runs.

(** C4.  There are two fixed texts such that, in every run that captures a
    non-empty staged diff, the prompt handed to [gemini chat] is the first
    text, the marker "--- GIT DIFF ---", a newline, the diff unchanged, a
    newline, the marker "--- END GIT DIFF ---", and the second text. *)
Theorem prompt_embeds_diff :
  exists head tail : str,
    forall (W : World) (s : St W) (path d e : str),
      d <> [] ->
      In (EvRun git_diff_cmd (Some path) (Exited 0 d e)) (trace (cli W path s)) ->
      exists res,
        In (EvRun [lit "gemini"; lit "chat";
                   head ++ lit "--- GIT DIFF ---" ++ nl ++ d ++ nl
                   ++ lit "--- END GIT DIFF ---" ++ tail]
                  None res)
           (trace (cli W path s)).
Proof.
  exists (lit "You are an expert programmer. Your task is to write a concise and conventional "
          ++ lit "commit message based on the following git diff. The message should be in the imperative mood, "
          ++ lit "for example, 'Add feature' not 'Added feature'. Do not include any preamble or backticks."
          ++ nl ++ nl),
         (nl ++ nl ++ lit "Commit message:").
  intros W s path d e Hd H.
  assert (Hp : forall x, prompt x =
     (lit "You are an expert programmer. Your task is to write a concise and conventional "
          ++ lit "commit message based on the following git diff. The message should be in the imperative mood, "
          ++ lit "for example, 'Add feature' not 'Added feature'. Do not include any preamble or backticks."
          ++ nl ++ nl) ++ lit "--- GIT DIFF ---" ++ nl ++ x ++ nl
                   ++ lit "--- END GIT DIFF ---" ++ nl ++ nl ++ lit "Commit message:").
  { intros x. unfold prompt, diff_begin, diff_end.
    repeat rewrite <- app_assoc. reflexivity. }
  rewrite <- Hp. clear Hp. revert Hd H.
  run_cli; intros Hd H; pick_event H; no_clash.
  all: eexists; unfold gemini_cmd; cbn [In];
    repeat (first [left; reflexivity | right]).
Qed.

Lemma decline_never_commits_witness :
  let r := cli scripted repo_path (staged suggestion ReplyNo committed) in
  In (EvConfirm (nl ++ lit "Do you want to commit with this message?") true
        ReplyNo) (trace r)
  /\ (exists out pre,
         trace r =
         pre ++ [EvEcho false (strip out);
                 EvEcho false (lit "---------------------------------");
                 EvConfirm (nl ++ lit "Do you want to commit with this message?")
                   true ReplyNo;
                 EvEcho false (lit "Commit aborted by user.")])
  /\ val r = inl tt
  /\ existsb runs_git_commit (trace r) = false.
Proof.
  intros r.
  assert (H : In (EvConfirm (nl ++ lit "Do you want to commit with this message?")
                    true ReplyNo) (trace r)) by in_trace.
  split; [exact H|].
  exact (decline_never_commits scripted _ repo_path _ _ H).
Defined.

Lemma empty_diff_stops_before_gemini_witness :
  let r := cli scripted repo_path nothing_staged in
  In (EvRun [lit "git"; lit "diff"; lit "--staged"] (Some repo_path)
        (Exited 0 [] [])) (trace r)
  /\ In (EvEcho false
           (lit "No staged changes to commit. Use 'git add' to stage your changes."))
        (trace r)
  /\ exit_status r = 0%Z
  /\ existsb (runs (lit "gemini")) (trace r) = false.
Proof.
  intros r.
  assert (H : In (EvRun [lit "git"; lit "diff"; lit "--staged"] (Some repo_path)
                    (Exited 0 [] [])) (trace r))
    by in_trace.
  destruct (empty_diff_stops_before_gemini scripted _ repo_path _ H)
    as (_ & _ & Hx & Hg).
  repeat split; trivial. in_trace.
Defined.

(** C3 as stated fails: on a machine without [gemini] a directory that is
    not a repository gets the missing-dependency report, and the
    not-a-repository message is never printed. *)
Lemma not_a_repository_unreported_without_gemini :
  let r := cli scripted repo_path bare_machine in
  w_isdir scripted bare_machine (repo_path ++ lit "/.git") = false
  /\ echoed true (trace r) =
       [lit "Error: The 'gemini' CLI is not installed or not in your PATH.";
        lit "Please install it using: npm install -g @google/gemini-cli"]
  /\ ~ In (EvEcho true (lit "Error: The provided path is not a Git repository."))
          (trace r).
Proof.
  intros r. split; [reflexivity | split; [reflexivity|]].
  vm_compute. intuition discriminate.
Qed.

Lemma not_a_repository_reported_witness :
  let r := cli scripted repo_path plain_directory in
  (forall tty,
      main_stderr tty r =
      [ErrLine (lit "Error: The provided path is not a Git repository." ++ nl)])
  /\ existsb is_run (trace r) = false
  /\ val r = inl tt.
Proof.
  intros r.
  assert (Hdir : ((repo_path = [] \/ exists p', repo_path = p' ++ lit "/")
                  /\ repo_path ++ lit "/.git" = repo_path ++ lit ".git")
                 \/ (repo_path <> [] /\ (forall p', repo_path <> p' ++ lit "/")
                     /\ repo_path ++ lit "/.git" = repo_path ++ lit "/.git")).
  { right. split; [discriminate|]. split; [|reflexivity].
    intros p' E. apply (f_equal (@rev char)) in E.
    rewrite rev_app_distr in E. vm_compute in E. discriminate E. }
  destruct (not_a_repository_reported scripted plain_directory repo_path
              (repo_path ++ lit "/.git") Hdir eq_refl)
    as (H & _).
  destruct (H eq_refl) as (_ & He & Hr & Hv & _).
  repeat split; trivial.
Defined.

Lemma prompt_embeds_diff_witness :
  exists head tail res,
    In (EvRun [lit "gemini"; lit "chat";
               head ++ lit "--- GIT DIFF ---" ++ nl ++ sample_diff ++ nl
               ++ lit "--- END GIT DIFF ---" ++ tail]
              None res)
       (trace (cli scripted repo_path (staged suggestion ReplyBare committed))).
Proof.
  destruct prompt_embeds_diff as (head & tail & H).
  exists head, tail.
  apply (H scripted (staged suggestion ReplyBare committed) repo_path
           sample_diff []).
  - vm_compute. discriminate.
  - in_trace.
Defined.

(** Scenario C: the suggestion "Fix off-by-one in parser" followed by a
    newline, confirmed with a bare line. *)
Lemma confirmed_commit_uses_trimmed_output_witness :
  let r := cli scripted repo_path (staged suggestion ReplyBare committed) in
  strip (lit "Fix off-by-one in parser" ++ nl) = lit "Fix off-by-one in parser"
  /\ trimmed (strip (lit "Fix off-by-one in parser" ++ nl))
  /\ In (EvRun [lit "git"; lit "commit"; lit "-m"; lit "Fix off-by-one in parser"]
           (Some repo_path) committed) (trace r)
  /\ val r = inl tt.
Proof.
  intros r.
  assert (H1 : In (EvRun (gemini_cmd (prompt sample_diff)) None suggestion)
                  (trace r)) by in_trace.
  assert (H2 : In (EvConfirm msg_confirm true ReplyBare) (trace r)) by in_trace.
  destruct (confirmed_commit_uses_trimmed_output scripted _ repo_path
              _ _ _ _ _ H1 H2) as ((_ & Ht) & _).
  split; [reflexivity|]. split; [exact Ht|]. split; [in_trace | reflexivity].
Defined.

(** Scenario E: the commit exits with status 1 and the standard error
    "nothing to commit, working tree clean". *)
Lemma nonzero_exit_is_reported_witness :
  let r := cli scripted repo_path (staged suggestion ReplyYes clean_tree) in
  (exists pre,
      trace r =
      pre ++ [EvRun [lit "git"; lit "commit"; lit "-m";
                     lit "Fix off-by-one in parser"]
                (Some repo_path) clean_tree;
              EvEcho true
                (nl ++ lit "An error occurred while running an external command:");
              EvEcho true
                (lit "Command: git commit -m Fix off-by-one in parser");
              EvEcho true
                (lit "Error Message: nothing to commit, working tree clean")])
  /\ (forall tty,
         written tty (lit "Error Message: nothing to commit, working tree clean")
         = lit "Error Message: nothing to commit, working tree clean" ++ nl)
  /\ val r = inl tt.
Proof.
  intros r.
  destruct (nonzero_exit_is_reported scripted
              (staged suggestion ReplyYes clean_tree) repo_path
              [lit "git"; lit "commit"; lit "-m"; lit "Fix off-by-one in parser"]
              (Some repo_path)
              1%Z [] (lit "nothing to commit, working tree clean"))
    as (_ & Hw & Hv).
  - in_trace.
  - discriminate.
  - split; [ends_with|]. split; [|exact Hv].
    intros tty. apply (Hw tty). right. vm_compute. intuition discriminate.
Defined.

(** C6 as stated fails: a commit that exits with status 1 and output that is
    not valid text raises [UnicodeDecodeError], which no clause catches, and
    nothing is reported. *)
Lemma nonzero_exit_unreported_when_undecodable :
  let r := cli scripted repo_path garbled_commit in
  In (EvRun [lit "git"; lit "commit"; lit "-m"; lit "Fix off-by-one in parser"]
        (Some repo_path) (Undecodable 1)) (trace r)
  /\ echoed true (trace r) = []
  /\ val r = inr UnicodeDecodeError.
Proof.
  intros r. split; [in_trace | split; reflexivity].
Qed.

(** C7 as stated fails: the same failed commit is an external command
    failure, and the process exits with status 1. *)
Lemma undecodable_failure_exits_one :
  let r := cli scripted repo_path garbled_commit in
  (exists pre,
      trace r =
      pre ++ [EvRun [lit "git"; lit "commit"; lit "-m";
                     lit "Fix off-by-one in parser"]
                (Some repo_path) (Undecodable 1)])
  /\ val r <> inl tt
  /\ exit_status r = 1%Z.
Proof.
  intros r. split; [ends_with | split; [discriminate | reflexivity]].
Qed.

Lemma blank_suggestion_is_committed_witness :
  let r := cli scripted repo_path (staged blank_suggestion ReplyBare committed) in
  strip (lit "  " ++ nl) = []
  /\ In (EvRun [lit "git"; lit "commit"; lit "-m"; []] (Some repo_path) committed)
        (trace r).
Proof.
  intros r.
  assert (H : In (EvRun (gemini_cmd (prompt sample_diff)) None blank_suggestion)
                 (trace r)) by in_trace.
  destruct (blank_suggestion_is_committed scripted _ repo_path _
              (lit "  " ++ nl) [] eq_refl H) as (Hs & _).
  split; [exact Hs | in_trace].
Defined.

Lemma handled_outcomes_exit_zero_witness :
  let r := cli scripted repo_path (staged suggestion ReplyYes clean_tree) in
  handled ExternalCommandFailure (trace r)
  /\ val r = inl tt
  /\ exit_status r = 0%Z
  /\ exists msg pre, trace r = pre ++ [EvEcho true msg].
Proof.
  intros r.
  assert (H : handled ExternalCommandFailure (trace r)).
  { apply (exited_nonzero
             (git_commit_cmd (lit "Fix off-by-one in parser")) (Some repo_path)
             1%Z [] (lit "nothing to commit, working tree clean")).
    - discriminate.
    - in_trace. }
  destruct (handled_outcomes_exit_zero scripted _ repo_path _ H)
    as (Hv & Hx & He).
  repeat split; trivial. apply He. reflexivity.
Defined.

Lemma missing_executables_have_dedicated_reports_witness :
  (let r := cli scripted repo_path bare_machine in
   echoed true (trace r) = [msg_gemini_missing; msg_gemini_hint]
   /\ existsb is_run (trace r) = false
   /\ st r = bare_machine)
  /\ (let r := cli scripted repo_path git_missing in
      (exists pre,
          trace r =
          pre ++ [EvRun git_diff_cmd (Some repo_path) SpawnNotFound;
                  EvEcho true msg_git_missing])
      /\ val r = inl tt).
Proof.
  split.
  - intros r.
    destruct (missing_executables_have_dedicated_reports
                scripted bare_machine repo_path) as (H & _).
    destruct (H eq_refl) as (_ & Hs & _).
    split; [reflexivity | split; [reflexivity | exact Hs]].
  - intros r.
    destruct (missing_executables_have_dedicated_reports
                scripted git_missing repo_path) as (_ & H).
    apply (H git_diff_cmd (Some repo_path)). in_trace.
Defined.

Lemma empty_diff_run_is_repeatable_witness :
  let r := cli scripted repo_path nothing_staged in
  filter is_run (trace r) = [EvRun git_diff_cmd (Some repo_path) (Exited 0 [] [])]
  /\ cli scripted repo_path (st r) = r.
Proof.
  intros r.
  destruct (empty_diff_run_is_repeatable scripted nothing_staged repo_path
              [] nothing_staged eq_refl eq_refl eq_refl)
    as ((_ & Hf & _) & Hr).
  split; [exact Hf | exact (Hr eq_refl)].
Defined.

(** * Further properties of [cli] *)

Ltac in_list := solve [cbn [In]; repeat (first [left; reflexivity | right])].

(** What [strip] returns never starts with a character it removes. *)
Lemma strip_starts_unspaced (x : str) (c : char) (m : str) :
  strip x = c :: m -> isspace c = false.
Proof.
  intros E. destruct (strip_spec x) as (_ & Hh & _). exact (Hh c m E).
Qed.

(** Text that is already trimmed is a fixed point of [strip]. *)
Lemma strip_trimmed (x : str) : trimmed x -> strip x = x.
Proof.
  intros [Hh Hl]. unfold strip.
  assert (E1 : lstrip x = x).
  { destruct x as [|c m]; [reflexivity|].
    cbn [lstrip]. now rewrite (Hh c m eq_refl). }
  rewrite E1. unfold rstrip.
  destruct (rev x) as [|c r] eqn:E; cbn [lstrip].
  - rewrite <- E. apply rev_involutive.
  - assert (Ex : x = rev r ++ [c]).
    { rewrite <- (rev_involutive x), E. reflexivity. }
    rewrite (Hl c (rev r) Ex), <- E. apply rev_involutive.
Qed.

(** A text whose first and last characters are not whitespace is trimmed. *)
Lemma trimmed_ends (x : str) :
  match x with
  | [] => True
  | c :: _ => isspace c = false /\ isspace (last x c) = false
  end -> trimmed x.
Proof.
  destruct x as [|a m]; intros H; split; intros c m' E; try discriminate E.
  - now destruct m'.
  - injection E as -> _. apply H.
  - destruct H as [_ H]. rewrite E, last_last in H. exact H.
Qed.

Section More.

Context (W : World) (s : St W) (path : str).

Local Abbreviation run := (cli W path s).

(** X1.  An exception that [subprocess.run] or [click.confirm] raises and
    that neither [except] clause names (output that does not decode, an
    argument with a null character, an operating-system error other than
    file-not-found, end of input at the prompt) leaves [cli]: the run ends
    at that call, [cli] has written nothing to the error stream, and the
    exit status is 1.  [CalledProcessError] and [FileNotFoundError] never
    leave [cli]. *)
Theorem uncaught_exceptions_leave_cli :
  (forall ev e,
      raises ev = Some e ->
      In ev (trace run) ->
      (exists pre, trace run = pre ++ [ev])
      /\ val run = inr e
      /\ exit_status run = 1%Z
      /\ echoed true (trace run) = [])
  /\ (forall rc cmd o e, val run <> inr (CalledProcessError rc cmd o e))
  /\ val run <> inr FileNotFoundError.
Proof.
  run_cli.
  all: split; [|split; [intros rc0 cmd0 o0 e0 E | intros E]; discriminate E].
  all: intros ev e Hr H; pick_event H; subst ev; cbn [raises] in Hr;
    try discriminate Hr.
  all: injection Hr as <-; repeat split; ends_with.
Qed.


(** X3.  The processes of a run are an initial part of a fixed sequence:
    [git diff --staged] in the target directory; then, if that exited with
    status 0 and output [d], [gemini chat] with the prompt built from [d], in
    the inherited directory; then, if that exited with status 0 and output
    [out], [git commit -m] with [out] trimmed, in the target directory.  So a
    run starts at most three processes, each at most once. *)
Theorem processes_start_in_fixed_order :
  filter is_run (trace run) = []
  \/ (exists r1,
         filter is_run (trace run) =
         [EvRun [lit "git"; lit "diff"; lit "--staged"] (Some path) r1])
  \/ (exists d e1 r2,
         filter is_run (trace run) =
         [EvRun [lit "git"; lit "diff"; lit "--staged"] (Some path)
            (Exited 0 d e1);
          EvRun [lit "gemini"; lit "chat"; prompt d] None r2])
  \/ (exists d e1 out e2 r3,
         filter is_run (trace run) =
         [EvRun [lit "git"; lit "diff"; lit "--staged"] (Some path)
            (Exited 0 d e1);
          EvRun [lit "gemini"; lit "chat"; prompt d] None (Exited 0 out e2);
          EvRun [lit "git"; lit "commit"; lit "-m"; strip out] (Some path) r3]).
Proof.
  run_cli.
  all: first [ left; reflexivity
             | right; left; eexists; reflexivity
             | right; right; left; do 3 eexists; reflexivity
             | right; right; right; do 5 eexists; reflexivity ].
Qed.

(** X4.  Every [git commit] a run starts comes right after a yes or a bare
    line at the confirmation prompt, runs in the target directory, and
    carries exactly the message that was passed to [click.echo] above the
    prompt, which is the trimmed output of a [gemini] invocation that exited
    with status 0.  What is displayed is that message unchanged when standard
    output is a terminal or the message has no escape character. *)
Theorem commit_only_after_confirmation
    (cmd : list str) (cwd : option str) (r : spawn_result) :
  In (EvRun cmd cwd r) (trace run) ->
  runs_git_commit (EvRun cmd cwd r) = true ->
  exists git_diff out e rep post,
    (rep = ReplyYes \/ rep = ReplyBare)
    /\ cmd = [lit "git"; lit "commit"; lit "-m"; strip out]
    /\ cwd = Some path
    /\ In (EvRun [lit "gemini"; lit "chat"; prompt git_diff] None
             (Exited 0 out e))
          (trace run)
    /\ (exists pre,
           trace run =
           pre ++ [EvEcho false (strip out);
                   EvEcho false (lit "---------------------------------");
                   EvConfirm (nl ++ lit "Do you want to commit with this message?")
                     true rep;
                   EvEcho false (lit "Committing changes...");
                   EvRun cmd cwd r] ++ post)
    /\ (forall tty,
           tty = true \/ ~ In esc (strip out) ->
           written tty (strip out) = strip out ++ nl).
Proof.
  run_cli; intros H; pick_event H; intros Hc;
    try (vm_compute in Hc; discriminate Hc).
  all: do 5 eexists;
    (split; [|split; [reflexivity | split; [reflexivity |
       split; [in_list |
               split; [find_infix | intros tty; apply written_unchanged]]]]]);
    first [left; reflexivity | right; reflexivity].
Qed.


(** X6.  When [gemini] exits non-zero, the command line echoed to the error
    stream is "gemini chat " followed by the whole prompt, so the complete
    staged diff is reproduced in the error report. *)
Theorem gemini_failure_echoes_whole_prompt
    (p : str) (cwd : option str) (rc : Z) (out err : str) :
  In (EvRun [lit "gemini"; lit "chat"; p] cwd (Exited rc out err)) (trace run) ->
  rc <> 0%Z ->
  exists git_diff e,
    In (EvRun git_diff_cmd (Some path) (Exited 0 git_diff e)) (trace run)
    /\ git_diff <> []
    /\ p = prompt git_diff
    /\ exists pre,
        trace run =
        pre ++ [EvEcho true msg_ext_error;
                EvEcho true (lit "Command: gemini chat " ++ prompt git_diff);
                EvEcho true (lit "Error Message: " ++ err)].
Proof.
  run_cli; intros H; pick_event H; intros Hrc; no_clash.
  all: do 2 eexists; split; [in_list|]; split; [discriminate|];
    split; [reflexivity | ends_with].
Qed.

(** X7.  The confirmation is asked with the default set to yes, and only
    right after the suggestion of a [gemini] invocation that exited with
    status 0 has been displayed between two rules. *)
Theorem confirmation_follows_display (q : str) (d : bool) (rep : reply) :
  In (EvConfirm q d rep) (trace run) ->
  q = msg_confirm /\ d = true
  /\ exists p out e post pre,
      trace run =
      pre ++ [EvRun (gemini_cmd p) None (Exited 0 out e);
              EvEcho false msg_suggested; EvEcho false msg_rule;
              EvEcho false (strip out); EvEcho false msg_rule;
              EvConfirm msg_confirm true rep] ++ post.
Proof.
  run_cli; intros H; pick_event H; no_clash.
  all: split; [reflexivity|]; split; [reflexivity|].
  all: do 4 eexists; find_infix.
Qed.

(** X8.  [cli] passes the success message, a newline, the check mark and
    " Commit successful!", to [click.echo] only in runs in which [git commit]
    exited with status 0.  The displayed suggestion is never that whole
    message, since it is trimmed and the message starts with a newline (it
    may contain the same words). *)
Theorem success_report_only_after_commit :
  In (EvEcho false (nl ++ [9989%N] ++ lit " Commit successful!")) (trace run) ->
  exists m o e,
    In (EvRun [lit "git"; lit "commit"; lit "-m"; m] (Some path) (Exited 0 o e))
       (trace run).
Proof.
  run_cli; intros H.
  all: try (do 3 eexists; in_list).
  all: pick_event H.
  all: match goal with
       | E : strip _ = _ |- _ =>
           unfold nl in E; cbn [app] in E;
           apply strip_starts_unspaced in E; vm_compute in E; discriminate E
       end.
Qed.

(** X10.  When the output of [gemini] neither starts nor ends with
    whitespace, the message passed to [click.echo] between the rules is that
    output itself, whitespace and line breaks inside it included; it reaches
    standard output unchanged when that is a terminal or the output has no
    escape character. *)
Theorem trimmed_suggestion_shown_unchanged (p out e : str) :
  In (EvRun (gemini_cmd p) None (Exited 0 out e)) (trace run) ->
  trimmed out ->
  (exists post pre,
      trace run =
      pre ++ [EvEcho false (nl ++ [10024%N] ++ lit " Suggested Commit Message "
                            ++ [10024%N]);
              EvEcho false (lit "---------------------------------");
              EvEcho false out;
              EvEcho false (lit "---------------------------------")] ++ post)
  /\ (forall tty, tty = true \/ ~ In esc out -> written tty out = out ++ nl).
Proof.
  intros H Ht. split; [|intros tty; apply written_unchanged].
  pose proof (strip_trimmed out Ht) as Hs. clear Ht.
  revert Hs H.
  run_cli; intros Hs H; pick_event H; no_clash.
  all: rewrite Hs; eexists; find_infix.
Qed.

(** X12.  Standard output stays empty when [gemini] is not resolvable;
    otherwise its first line is the progress line naming the target path,
    whatever happens afterwards. *)
Theorem progress_line_comes_first :
  if truthy (w_which W s (lit "gemini"))
  then exists rest,
      echoed false (trace run) = (lit "Analyzing repository at: " ++ path) :: rest
  else echoed false (trace run) = [].
Proof.
  run_cli; cbv [echoed flat_map Bool.eqb app]; try reflexivity.
  all: eexists; reflexivity.
Qed.

(** X13.  When [gemini] passed the lookup but starting it fails because the
    file is not found, the report on the error stream is the one that names
    git; the message about a missing gemini is not printed. *)
Theorem gemini_start_failure_blames_git (p : str) (cwd : option str) :
  In (EvRun (gemini_cmd p) cwd SpawnNotFound) (trace run) ->
  echoed true (trace run) =
    [lit "Error: 'git' command not found. Make sure Git is installed and in your PATH."]
  /\ val run = inl tt.
Proof.
  run_cli; intros H; pick_event H; cmd_clash.
  all: split; reflexivity.
Qed.

End More.

(** X9.  The candidate message is empty exactly when the text it is trimmed
    from consists of whitespace only. *)
Theorem strip_empty_iff_blank (out : str) :
  strip out = [] <-> all_space out = true.
Proof.
  split; [|apply strip_all_space].
  intros E. destruct (strip_spec out) as ((l & t & Ho & Hl & Ht) & _).
  rewrite E in Ho. cbn [app] in Ho. rewrite Ho.
  unfold all_space in *. rewrite forallb_app. now rewrite Hl, Ht.
Qed.

(** X11.  The prompt determines the diff it was built from: two different
    staged diffs never give the same prompt. *)
Theorem prompt_injective (d1 d2 : str) : prompt d1 = prompt d2 -> d1 = d2.
Proof.
  unfold prompt. intros H.
  do 4 apply app_inv_head in H.
  now apply app_inv_tail in H.
Qed.

Lemma uncaught_exceptions_leave_cli_witness :
  let r := cli scripted repo_path garbled_commit in
  val r = inr UnicodeDecodeError
  /\ exit_status r = 1%Z
  /\ echoed true (trace r) = [].
Proof.
  intros r.
  destruct (uncaught_exceptions_leave_cli scripted garbled_commit repo_path)
    as (H & _).
  destruct (H (EvRun [lit "git"; lit "commit"; lit "-m";
                      lit "Fix off-by-one in parser"]
                 (Some repo_path) (Undecodable 1))
              UnicodeDecodeError eq_refl)
    as (_ & Hv & Hx & He).
  - in_trace.
  - repeat split; trivial.
Defined.


Lemma commit_only_after_confirmation_witness :
  let r := cli scripted repo_path (staged suggestion ReplyYes committed) in
  exists git_diff out e rep,
    (rep = ReplyYes \/ rep = ReplyBare)
    /\ [lit "git"; lit "commit"; lit "-m"; lit "Fix off-by-one in parser"]
       = [lit "git"; lit "commit"; lit "-m"; strip out]
    /\ In (EvRun [lit "gemini"; lit "chat"; prompt git_diff] None
             (Exited 0 out e)) (trace r).
Proof.
  intros r.
  destruct (commit_only_after_confirmation scripted
              (staged suggestion ReplyYes committed) repo_path
              [lit "git"; lit "commit"; lit "-m"; lit "Fix off-by-one in parser"]
              (Some repo_path) committed)
    as (d & out & e & rep & post & Hrep & Hcmd & _ & Hin & _).
  - in_trace.
  - reflexivity.
  - exists d, out, e, rep. repeat split; assumption.
Defined.

Lemma gemini_failure_echoes_whole_prompt_witness :
  let r := cli scripted repo_path (staged gemini_quota ReplyYes committed) in
  In (EvEcho true (lit "Command: gemini chat " ++ prompt sample_diff)) (trace r).
Proof.
  intros r.
  destruct (gemini_failure_echoes_whole_prompt scripted
              (staged gemini_quota ReplyYes committed) repo_path
              (prompt sample_diff) None 1%Z [] (lit "quota exceeded"))
    as (d & e & _ & _ & _ & _).
  - in_trace.
  - discriminate.
  - in_trace.
Defined.

Lemma confirmation_follows_display_witness :
  let r := cli scripted repo_path (staged suggestion ReplyNo committed) in
  exists p out e post pre,
    trace r =
    pre ++ [EvRun (gemini_cmd p) None (Exited 0 out e);
            EvEcho false msg_suggested; EvEcho false msg_rule;
            EvEcho false (strip out); EvEcho false msg_rule;
            EvConfirm msg_confirm true ReplyNo] ++ post.
Proof.
  intros r.
  assert (H : In (EvConfirm msg_confirm true ReplyNo) (trace r)) by in_trace.
  exact (proj2 (proj2 (confirmation_follows_display scripted _ repo_path
                         _ _ _ H))).
Defined.

Lemma success_report_only_after_commit_witness :
  let r := cli scripted repo_path (staged suggestion ReplyBare committed) in
  exists m o e,
    In (EvRun [lit "git"; lit "commit"; lit "-m"; m] (Some repo_path)
          (Exited 0 o e)) (trace r).
Proof.
  intros r.
  apply (success_report_only_after_commit scripted
           (staged suggestion ReplyBare committed) repo_path).
  in_trace.
Defined.

Lemma trimmed_suggestion_shown_unchanged_witness :
  let r := cli scripted repo_path
             (staged (Exited 0 two_line_message []) ReplyYes committed) in
  (exists post pre,
      trace r =
      pre ++ [EvEcho false (nl ++ [10024%N] ++ lit " Suggested Commit Message "
                            ++ [10024%N]);
              EvEcho false (lit "---------------------------------");
              EvEcho false two_line_message;
              EvEcho false (lit "---------------------------------")] ++ post)
  /\ (forall tty, written tty two_line_message = two_line_message ++ nl).
Proof.
  intros r.
  destruct (trimmed_suggestion_shown_unchanged scripted
              (staged (Exited 0 two_line_message []) ReplyYes committed)
              repo_path (prompt sample_diff) two_line_message [])
    as (Ht & Hw).
  - in_trace.
  - apply trimmed_ends. vm_compute. split; reflexivity.
  - split; [exact Ht|]. intros tty. apply Hw. right.
    vm_compute. intuition discriminate.
Defined.

Lemma prompt_injective_witness : sample_diff = sample_diff.
Proof.
  apply (prompt_injective sample_diff sample_diff). reflexivity.
Defined.

Lemma gemini_start_failure_blames_git_witness :
  let r := cli scripted repo_path gemini_vanished in
  echoed true (trace r) = [msg_git_missing] /\ val r = inl tt.
Proof.
  intros r.
  apply (gemini_start_failure_blames_git scripted gemini_vanished repo_path
           (prompt sample_diff) None).
  in_trace.
Defined.
